(** * Printable contact sheet generator: a shallow embedding of its layout,
      discovery, footer and compositing code, with the properties of its
      specification.

    The program is one Node.js script.  Its arithmetic is JavaScript's:
    the canvas size is computed in IEEE-754 binary64 (Rocq's primitive
    floats), every other quantity is a small integer (Z).  Strings are
    byte strings.  The image library (sharp), the file system and the
    [path] module are outside the script: they are modelled by the small
    interfaces the script relies on. *)

From Stdlib Require Import ZArith QArith Qround Bool List Lia.
From Stdlib Require Import Ascii String DecimalString.
From Stdlib Require Import PrimFloat FloatOps SpecFloat Uint63.
Import ListNotations.

Set Warnings "-inexact-float".
Local Open Scope Z_scope.

(** ** JavaScript helpers *)

Module JS.

(** [Math.round] on a binary64 number: the nearest integer, ties towards
    +infinity, computed exactly from the number's mantissa and exponent.
    [None] stands for NaN and the infinities, which are not integers. *)
Definition Math_round (x : float) : option Z :=
  match Prim2SF x with
  | S754_zero _ => Some 0
  | S754_finite s m e =>
      let n := if s then Z.neg m else Z.pos m in
      Some (if 0 <=? e then n * 2 ^ e
            else (2 * n + 2 ^ (- e)) / (2 * 2 ^ (- e)))
  | S754_infinity _ | S754_nan => None
  end.


(** [`${n}`] for an integer-valued number. *)
Definition template (n : Z) : string := NilZero.string_of_int (Z.to_int n).

(** Truthiness of a value that is a string or [null]: the string itself
    when it is neither [null] nor empty. *)
Definition truthy (v : option string) : option string :=
  match v with
  | Some s => if (s =? "")%string then None else Some s
  | None => None
  end.

(** [s.replace(/c/g, by)] for a one-character pattern. *)
Fixpoint replace_all (c : ascii) (by_ : string) (s : string) : string :=
  match s with
  | EmptyString => EmptyString
  | String a rest =>
      if Ascii.eqb a c then (by_ ++ replace_all c by_ rest)%string
      else String a (replace_all c by_ rest)
  end.

(** [parts.join(sep)]. *)
Definition join (sep : string) (parts : list string) : string :=
  String.concat sep parts.

(** [xs.slice(0, n)]. *)
Definition slice0 {A} (n : Z) (xs : list A) : list A := firstn (Z.to_nat n) xs.

(** [xs.includes(s)] on an array of strings. *)
Definition includes (xs : list string) (s : string) : bool :=
  existsb (String.eqb s) xs.

Definition dquote : string := String "034"%char EmptyString.
Definition newline : string := String "010"%char EmptyString.

End JS.

(** ** Configuration (120x120mm at 300 DPI) *)

Definition DPI : float := 300.
Definition SIZE_MM : float := 120.
Definition SIZE_INCHES : float := (SIZE_MM / 25.4)%float.

(** [Math.round(SIZE_INCHES * DPI)] as a JavaScript number ... *)
Definition IMAGE_SIZE_number : option Z := JS.Math_round (SIZE_INCHES * DPI)%float.

(** ... and as the integer the rest of the script computes with. *)
Definition IMAGE_SIZE : Z :=
  match IMAGE_SIZE_number with Some n => n | None => 0 end.



Definition GRID_ROWS : Z := 6.
Definition GRID_COLS : Z := 6.
Definition MAX_IMAGES : Z := GRID_ROWS * GRID_COLS.

Definition MARGIN : Z := 12.
Definition CELL_PADDING : Z := 4.

Definition CELL_HEIGHT : Z := 175.
Definition CELL_WIDTH : Z := 228.

Definition GRID_HEIGHT : Z :=
  (GRID_ROWS * CELL_HEIGHT) + ((GRID_ROWS - 1) * CELL_PADDING).

Record Color := { r : Z; g : Z; b : Z }.

Definition WHITE : Color := {| r := 255; g := 255; b := 255 |}.
Definition BLACK : Color := {| r := 0; g := 0; b := 0 |}.
Definition LIGHT_GRAY : Color := {| r := 240; g := 240; b := 240 |}.

(** How a call that may throw completes. *)
Inductive Completion (A : Type) : Type :=
| Return (value : A)
| Throw (message : string).
Arguments Return {A} value.
Arguments Throw {A} message.

(** ** Node's [path] module, as far as the script uses it *)

Module Path.

Fixpoint drop_separators (cs : list ascii) : list ascii :=
  match cs with
  | c :: rest => if Ascii.eqb c "/" then drop_separators rest else cs
  | [] => []
  end.

Fixpoint take_component (cs : list ascii) : list ascii :=
  match cs with
  | c :: rest => if Ascii.eqb c "/" then [] else c :: take_component rest
  | [] => []
  end.

(** The last component of [path], read from its end. *)
Definition last_component_rev (path : string) : list ascii :=
  take_component (drop_separators (rev (list_ascii_of_string path))).

(** Splits a reversed component at its first dot, the last dot of the
    component: what follows the dot and what precedes it, both reversed. *)
Fixpoint split_dot (cs : list ascii) : option (list ascii * list ascii) :=
  match cs with
  | [] => None
  | c :: rest =>
      if Ascii.eqb c "." then Some ([], rest)
      else match split_dot rest with
           | Some (after, before) => Some (c :: after, before)
           | None => None
           end
  end.

(** [path.extname]: from the last dot of the last component to its end;
    empty when the component has no dot, starts with its only dot, or
    is [..]. *)
Definition extname (path : string) : string :=
  match split_dot (last_component_rev path) with
  | None => EmptyString
  | Some (after, before) =>
      match before, after with
      | [], _ => EmptyString
      | ["."%char], [] => EmptyString
      | _, _ => string_of_list_ascii ("."%char :: rev after)
      end
  end.

(** [path.join] of a resolved directory and one of its entries. *)
Definition join (directory file : string) : string :=
  if (directory =? "/")%string then ("/" ++ file)%string
  else (directory ++ "/" ++ file)%string.

End Path.

(** ** Image discovery *)

Record ImageFile := { filename : string; fullPath : string }.

Definition imageExtensions : list string :=
  [".jpg"; ".jpeg"; ".JPG"; ".JPEG"]%string.

(** The predicate of [files.filter]. *)
Definition isImageFile (file : string) : bool :=
  let ext := Path.extname file in
  JS.includes imageExtensions ext.

(** [getImages(directory)]; [readdir] is what [fs.readdir] answers. *)
Definition getImages (readdir : string -> Completion (list string))
    (directory : string) : Completion (list ImageFile) :=
  match readdir directory with
  | Return files =>
      let imageFiles := filter isImageFile files in
      Return (map (fun file => {| filename := file;
                                  fullPath := Path.join directory file |})
                  (JS.slice0 MAX_IMAGES imageFiles))
  | Throw message => Throw ("Error reading directory: " ++ message)%string
  end.

(** ** Footer overlay *)

(** [escapeXml(text)]: five global replacements, in the script's order. *)
Definition escapeXml (text : string) : string :=
  JS.replace_all "'" "&apos;"
    (JS.replace_all "034" "&quot;"
      (JS.replace_all ">" "&gt;"
        (JS.replace_all "<" "&lt;"
          (JS.replace_all "&" "&amp;" text)))).

(** One [<text>] element of the footer: the holes of its template.  The
    font family (Arial, sans-serif) and the anchor (start) never vary. *)
Record TextElement := {
  text_x : Z;
  text_y : Z;
  font_size : Z;
  font_weight : string;
  text_fill : string;
  text_content : string
}.

Inductive SvgElement :=
| text (t : TextElement)
| line (x1 y1 x2 y2 : Z) (stroke : string) (stroke_width : Z).

(** An SVG overlay, kept as the tree its markup denotes: its declared
    size and its elements.  [Markup.svg] writes the markup itself. *)
Record Svg := { svg_width : Z; svg_height : Z; svg_body : list SvgElement }.

Module Markup.
Local Open Scope string_scope.

Definition attr (name value : string) : string :=
  " " ++ name ++ "=" ++ JS.dquote ++ value ++ JS.dquote.

Definition element (e : SvgElement) : string :=
  match e with
  | text t =>
      "<text" ++ attr "x" (JS.template (text_x t))
              ++ attr "y" (JS.template (text_y t))
              ++ attr "font-family" "Arial, sans-serif"
              ++ attr "font-size" (JS.template (font_size t))
              ++ attr "font-weight" (font_weight t)
              ++ attr "fill" (text_fill t)
              ++ attr "text-anchor" "start"
              ++ ">" ++ text_content t ++ "</text>"
  | line x1 y1 x2 y2 stroke stroke_width =>
      "<line" ++ attr "x1" (JS.template x1) ++ attr "y1" (JS.template y1)
              ++ attr "x2" (JS.template x2) ++ attr "y2" (JS.template y2)
              ++ attr "stroke" stroke
              ++ attr "stroke-width" (JS.template stroke_width) ++ "/>"
  end.

(** The text handed to [Buffer.from], laid out as [createFooterSVG]
    lays it out. *)
Definition svg (s : Svg) : string :=
  JS.newline ++ "    <svg" ++ attr "width" (JS.template (svg_width s))
             ++ attr "height" (JS.template (svg_height s)) ++ ">"
  ++ JS.newline ++ "      "
  ++ JS.join (JS.newline ++ "      ") (map element (svg_body s))
  ++ JS.newline ++ "    </svg>" ++ JS.newline ++ "  ".

End Markup.

(** The two templates of each line of the footer: its caption, always
    58 px in #666, and its value. *)
Definition label (x y : Z) (weight caption : string) : SvgElement :=
  text {| text_x := x; text_y := y; font_size := 58; font_weight := weight;
          text_fill := "#666"; text_content := caption |}.

Definition value (x y size : Z) (weight fill content : string) : SvgElement :=
  text {| text_x := x; text_y := y; font_size := size; font_weight := weight;
          text_fill := fill; text_content := content |}.

(** [createFooterSVG]: [parts] and [yPos] are threaded through the four
    conditionals in the script's order. *)
Definition createFooterSVG (serialNumber laboratory date notes : option string)
    (width height : Z) : Svg :=
  let parts : list SvgElement := [] in
  let yPos := 60 in
  let labelX := 0 in
  let valueX := 320 in
  let '(parts, yPos) :=
    match JS.truthy serialNumber with
    | Some serialNumber =>
        (parts ++ [label labelX yPos "normal" "Roll:";
                   value valueX yPos 84 "bold" "#000" (escapeXml serialNumber)],
         yPos + 68)
    | None => (parts, yPos)
    end in
  let '(parts, yPos) :=
    match JS.truthy laboratory with
    | Some laboratory =>
        (parts ++ [label labelX yPos "400" "Scaned by:";
                   value valueX yPos 58 "300" "#333" (escapeXml laboratory)],
         yPos + 63)
    | None => (parts, yPos)
    end in
  let '(parts, yPos) :=
    match JS.truthy date with
    | Some date =>
        (parts ++ [label labelX yPos "400" "Date:";
                   value valueX yPos 58 "300" "#333" (escapeXml date)],
         yPos + 63)
    | None => (parts, yPos)
    end in
  let parts :=
    match JS.truthy notes with
    | Some notes =>
        parts ++ [label labelX yPos "400" "Notes:";
                  value valueX yPos 58 "300" "#333" (escapeXml notes)]
    | None => parts
    end in
  {| svg_width := width; svg_height := height; svg_body := parts |}.

(** ** The image library, as the script uses it *)

(** What lies behind a path on disk. *)
Inductive Source :=
| Unreadable (message : string)
    (* not an image: [metadata()] rejects *)
| Damaged (width height : Z) (message : string)
    (* the header is read, the pixels cannot be decoded: [toBuffer()] rejects *)
| Picture (width height : Z).

Definition Disk := string -> Source.

Inductive Fit := cover | contain | fill.

Record ResizeOptions := { fit : Fit; background : Color }.

Inductive Operation :=
| Rotate (angle : Z)
| Resize (width height : Z) (options : ResizeOptions).

(** A pipeline under construction: an input and the operations asked of it. *)
Record Pipeline := { source_path : string; operations : list Operation }.

Record ImageMetadata := { width : Z; height : Z }.

(** A decoded image: its size, how far its picture was turned (degrees
    clockwise), the box the picture occupies and the colour around it. *)
Record Raster := {
  raster_source : string;
  raster_width : Z;
  raster_height : Z;
  turned : Z;
  content_left : Z;
  content_top : Z;
  content_width : Z;
  content_height : Z;
  surround : Color
}.

(** [round(a / b)] for positive [b], ties upwards. *)
Definition round_div (a b : Z) : Z := (2 * a + b) / (2 * b).

(** Modelled from the spec: the library's resize with fit [contain] is not
    part of the script.  "Contain fit: scaling an image to fit entirely
    within a bounding box while preserving aspect ratio": one scale factor,
    the smaller of [W/w] and [H/h], applied to both axes; each scaled side
    is rounded to the nearest pixel and is at least one pixel. *)
Definition contain_fit (w h W H : Z) : Z * Z :=
  if h * W <? w * H
  then (W, Z.max 1 (round_div (h * W) w))
  else (Z.max 1 (round_div (w * H) h), H).

Module Sharp.

Definition sharp (path : string) : Pipeline :=
  {| source_path := path; operations := [] |}.

Definition rotate (p : Pipeline) (angle : Z) : Pipeline :=
  {| source_path := source_path p;
     operations := operations p ++ [Rotate angle] |}.

Definition resize (p : Pipeline) (width height : Z) (options : ResizeOptions)
  : Pipeline :=
  {| source_path := source_path p;
     operations := operations p ++ [Resize width height options] |}.

Definition metadata (disk : Disk) (p : Pipeline) : Completion ImageMetadata :=
  match disk (source_path p) with
  | Unreadable message => Throw message
  | Damaged w h _ | Picture w h => Return {| width := w; height := h |}
  end.

(** A quarter turn clockwise: the sides swap, the picture's box follows. *)
Definition quarter_turn (img : Raster) : Raster :=
  {| raster_source := raster_source img;
     raster_width := raster_height img;
     raster_height := raster_width img;
     turned := (turned img + 90) mod 360;
     content_left := raster_height img - content_top img - content_height img;
     content_top := content_left img;
     content_width := content_height img;
     content_height := content_width img;
     surround := surround img |}.

(** Resizing to [W] x [H]: the whole current image is the picture. *)
Definition resized (img : Raster) (W H : Z) (options : ResizeOptions) : Raster :=
  let '(w, h) :=
    match fit options with
    | contain => contain_fit (raster_width img) (raster_height img) W H
    | cover | fill => (W, H)
    end in
  {| raster_source := raster_source img;
     raster_width := W;
     raster_height := H;
     turned := turned img;
     content_left := (W - w) / 2;
     content_top := (H - h) / 2;
     content_width := w;
     content_height := h;
     surround := background options |}.

Definition apply (img : Raster) (op : Operation) : Raster :=
  match op with
  | Rotate angle => Nat.iter (Z.to_nat ((angle / 90) mod 4)) quarter_turn img
  | Resize W H options => resized img W H options
  end.

Definition decoded (path : string) (w h : Z) : Raster :=
  {| raster_source := path;
     raster_width := w; raster_height := h; turned := 0;
     content_left := 0; content_top := 0;
     content_width := w; content_height := h;
     surround := BLACK |}.

Definition toBuffer (disk : Disk) (p : Pipeline) : Completion Raster :=
  match disk (source_path p) with
  | Unreadable message | Damaged _ _ message => Throw message
  | Picture w h =>
      Return (fold_left apply (operations p) (decoded (source_path p) w h))
  end.

End Sharp.

(** ** The contact sheet *)

Record Metadata := {
  serialNumber : option string;
  laboratory : option string;
  date : option string;
  notes : option string
}.

Inductive Buffer :=
| thumbnailBuffer (image : Raster)
| svgBuffer (overlay : Svg).

Record Composite := { input : Buffer; top : Z; left : Z }.

Record CreateOptions := {
  create_width : Z;
  create_height : Z;
  channels : Z;
  create_background : Color
}.

(** The value [createContactSheet] returns: the canvas with its overlays. *)
Record Sheet := { create : CreateOptions; composite : list Composite }.

(** A console line, without its leading pictograph. *)
Inductive ConsoleEntry :=
| console_log (message : string)
| console_warn (message : string).

(** The loop's state: the overlays pushed so far and the console. *)
Record Progress := {
  compositeImages : list Composite;
  console : list ConsoleEntry
}.

(** The [try] block of the loop, up to the thumbnail buffer. *)
Definition thumbnail (disk : Disk) (image : ImageFile) : Completion Raster :=
  let thumbHeight := CELL_HEIGHT in
  let thumbWidth := CELL_WIDTH in
  let imageBuffer := Sharp.sharp (fullPath image) in
  match Sharp.metadata disk imageBuffer with
  | Throw message => Throw message
  | Return metadata =>
      let processedImage := Sharp.sharp (fullPath image) in
      let processedImage :=
        if height metadata >? width metadata
        then Sharp.rotate processedImage 90
        else processedImage in
      Sharp.toBuffer disk
        (Sharp.resize processedImage thumbWidth thumbHeight
           {| fit := contain; background := WHITE |})
  end.

(** [for (let i = 0; i < images.length; i++)], from index [i] on. *)
Fixpoint processImages (disk : Disk) (images : list ImageFile) (i : Z)
    (st : Progress) : Progress :=
  match images with
  | [] => st
  | image :: rest =>
      let row := i / GRID_COLS in
      let col := Z.rem i GRID_COLS in
      let x := MARGIN + col * (CELL_WIDTH + CELL_PADDING) in
      let y := MARGIN + row * (CELL_HEIGHT + CELL_PADDING) in
      let st :=
        match thumbnail disk image with
        | Return buffer =>
            {| compositeImages :=
                 compositeImages st
                 ++ [{| input := thumbnailBuffer buffer; top := y; left := x |}];
               console := console st |}
        | Throw message =>
            {| compositeImages := compositeImages st;
               console :=
                 console st
                 ++ [console_warn ("Error processing " ++ filename image
                                   ++ ": " ++ message)%string] |}
        end in
      processImages disk rest (i + 1) st
  end.

(** [a || b || c || d] as a condition. *)
Definition anyField (metadata : Metadata) : bool :=
  match JS.truthy (serialNumber metadata), JS.truthy (laboratory metadata),
        JS.truthy (date metadata), JS.truthy (notes metadata) with
  | None, None, None, None => false
  | _, _, _, _ => true
  end.

Definition createContactSheet (disk : Disk) (images : list ImageFile)
    (metadata : Metadata) : Sheet * list ConsoleEntry :=
  let st :=
    {| compositeImages := [];
       console := [console_log ("Creating contact sheet with "
                     ++ JS.template (Z.of_nat (List.length images))
                     ++ " image(s)...")%string] |} in
  let footerStartY := MARGIN + GRID_HEIGHT in
  let footerHeight := IMAGE_SIZE - footerStartY - MARGIN in
  let canvas :=
    {| create_width := IMAGE_SIZE; create_height := IMAGE_SIZE;
       channels := 3; create_background := WHITE |} in
  let st := processImages disk images 0 st in
  let compositeImages := compositeImages st in
  let footerY := footerStartY + 20 in
  let compositeImages :=
    if anyField metadata then
      let footerSVG :=
        createFooterSVG (serialNumber metadata) (laboratory metadata)
          (date metadata) (notes metadata) (IMAGE_SIZE - MARGIN * 2) footerHeight in
      compositeImages
      ++ [{| input := svgBuffer footerSVG; top := footerY; left := MARGIN |}]
    else compositeImages in
  let compositeImages :=
    if anyField metadata then
      let lineSVG :=
        {| svg_width := IMAGE_SIZE - MARGIN * 2; svg_height := 1;
           svg_body := [line 0 0 (IMAGE_SIZE - MARGIN * 2) 0 "#E0E0E0" 1] |} in
      compositeImages
      ++ [{| input := svgBuffer lineSVG; top := footerStartY + 8; left := MARGIN |}]
    else compositeImages in
  ({| create := canvas; composite := compositeImages |}, console st).

(** ** The specification's vocabulary *)

(** Cell placement of the image of index [i], row-major. *)
Definition cell_row (i : Z) : Z := i / GRID_COLS.
Definition cell_col (i : Z) : Z := i mod GRID_COLS.
Definition origin_x (i : Z) : Z := MARGIN + cell_col i * (CELL_WIDTH + CELL_PADDING).
Definition origin_y (i : Z) : Z := MARGIN + cell_row i * (CELL_HEIGHT + CELL_PADDING).

Definition isThumbnail (c : Composite) : bool :=
  match input c with thumbnailBuffer _ => true | svgBuffer _ => false end.

(** The populated cells of a sheet and its overlays drawn as markup. *)
Definition thumbnails (s : Sheet) : list Composite := filter isThumbnail (composite s).
Definition overlays (s : Sheet) : list Composite :=
  filter (fun c => negb (isThumbnail c)) (composite s).

Definition warnings (c : list ConsoleEntry) : list string :=
  flat_map (fun e => match e with console_warn m => [m] | console_log _ => [] end) c.

(** What the loop contributes, image by image. *)
Fixpoint placed (disk : Disk) (images : list ImageFile) (i : Z) : list Composite :=
  match images with
  | [] => []
  | image :: rest =>
      match thumbnail disk image with
      | Return buffer =>
          [{| input := thumbnailBuffer buffer; top := origin_y i; left := origin_x i |}]
      | Throw _ => []
      end ++ placed disk rest (i + 1)
  end.

Fixpoint skipped (disk : Disk) (images : list ImageFile) : list ConsoleEntry :=
  match images with
  | [] => []
  | image :: rest =>
      match thumbnail disk image with
      | Return _ => []
      | Throw message =>
          [console_warn ("Error processing " ++ filename image ++ ": " ++ message)%string]
      end ++ skipped disk rest
  end.

(** A metadata field is present when it is a non-empty string. *)
Definition present (v : option string) : Prop := exists s, v = Some s /\ s <> EmptyString.

(** The sheet with the footer band left blank and no rule drawn. *)
Definition blankFooterSheet (disk : Disk) (images : list ImageFile) : Sheet :=
  {| create := {| create_width := IMAGE_SIZE; create_height := IMAGE_SIZE;
                  channels := 3; create_background := WHITE |};
     composite := placed disk images 0 |}.

(** The overlays the footer adds after the thumbnails. *)
Definition footerOverlays (metadata : Metadata) : list Composite :=
  if anyField metadata then
    [{| input := svgBuffer
                   (createFooterSVG (serialNumber metadata) (laboratory metadata)
                      (date metadata) (notes metadata) (IMAGE_SIZE - MARGIN * 2)
                      (IMAGE_SIZE - (MARGIN + GRID_HEIGHT) - MARGIN));
        top := MARGIN + GRID_HEIGHT + 20; left := MARGIN |};
     {| input := svgBuffer
                   {| svg_width := IMAGE_SIZE - MARGIN * 2; svg_height := 1;
                      svg_body := [line 0 0 (IMAGE_SIZE - MARGIN * 2) 0 "#E0E0E0" 1] |};
        top := MARGIN + GRID_HEIGHT + 8; left := MARGIN |}]
  else [].

(** The vertical extent of an overlay on the canvas. *)
Definition overlay_height (c : Composite) : Z :=
  match input c with
  | thumbnailBuffer image => raster_height image
  | svgBuffer overlay => svg_height overlay
  end.
Definition overlay_bottom (c : Composite) : Z := top c + overlay_height c.

(** The footer block of a sheet: its text overlay, if any. *)
Definition isFooterBlock (c : Composite) : bool :=
  match input c with
  | svgBuffer overlay =>
      existsb (fun e => match e with text _ => true | line _ _ _ _ _ _ => false end)
              (svg_body overlay)
  | thumbnailBuffer _ => false
  end.

(** The separator rule of a sheet: an overlay that draws a line. *)
Definition isRule (c : Composite) : bool :=
  match input c with
  | svgBuffer overlay =>
      existsb (fun e => match e with line _ _ _ _ _ _ => true | text _ => false end)
              (svg_body overlay)
  | thumbnailBuffer _ => false
  end.

(** The four footer lines, their captions and styles as the
    specification describes them. *)
Inductive Field := Serial | Laboratory | Date | Notes.

Definition caption (f : Field) : string :=
  match f with
  | Serial => "Roll:" | Laboratory => "Scaned by:" | Date => "Date:" | Notes => "Notes:"
  end.
Definition label_weight (f : Field) : string :=
  match f with Serial => "normal" | _ => "400" end.
Definition value_size (f : Field) : Z := match f with Serial => 84 | _ => 58 end.
Definition value_weight (f : Field) : string :=
  match f with Serial => "bold" | _ => "300" end.
Definition value_fill (f : Field) : string :=
  match f with Serial => "#000" | _ => "#333" end.
Definition advance (f : Field) : Z := match f with Serial => 68 | _ => 63 end.

(** The present fields, in footer order, with their text. *)
Definition present_lines (serialNumber laboratory date notes : option string)
  : list (Field * string) :=
  flat_map (fun fv => match JS.truthy (snd fv) with
                      | Some s => [(fst fv, s)]
                      | None => []
                      end)
    [(Serial, serialNumber); (Laboratory, laboratory); (Date, date); (Notes, notes)].

(** One line per entry, each below the previous one. *)
Fixpoint stack (y : Z) (lines : list (Field * string)) : list SvgElement :=
  match lines with
  | [] => []
  | (f, v) :: rest =>
      label 0 y (label_weight f) (caption f)
      :: value 320 y (value_size f) (value_weight f) (value_fill f) (escapeXml v)
      :: stack (y + advance f) rest
  end.



(** Escaping as the specification words it: each metacharacter becomes
    its entity, every other character stays. *)
Definition entity (c : ascii) : string :=
  if Ascii.eqb c "&" then "&amp;"
  else if Ascii.eqb c "<" then "&lt;"
  else if Ascii.eqb c ">" then "&gt;"
  else if Ascii.eqb c "034" then "&quot;"
  else if Ascii.eqb c "'" then "&apos;"
  else String c EmptyString.

Fixpoint xml_escaped (s : string) : string :=
  match s with
  | EmptyString => EmptyString
  | String c rest => (entity c ++ xml_escaped rest)%string
  end.

(** How often a character occurs in a string. *)
Fixpoint count_char (c : ascii) (s : string) : nat :=
  match s with
  | EmptyString => O
  | String a rest => ((if Ascii.eqb a c then 1 else 0) + count_char c rest)%nat
  end.

(** Membership of a character in a string. *)
Fixpoint occurs (c : ascii) (s : string) : bool :=
  match s with
  | EmptyString => false
  | String a rest => Ascii.eqb a c || occurs c rest
  end.



(** The operations asked of a source of size [w] x [h]. *)
Definition picture_pipeline (w h : Z) : list Operation :=
  (if h >? w then [Rotate 90] else [])
  ++ [Resize CELL_WIDTH CELL_HEIGHT {| fit := contain; background := WHITE |}].

(** The source as the resize step receives it: turned when it is taller
    than wide. *)
Definition oriented (path : string) (w h : Z) : Raster :=
  if h >? w then Sharp.quarter_turn (Sharp.decoded path w h)
  else Sharp.decoded path w h.

(** The thumbnail of a decodable source of size [w] x [h]. *)
Definition thumbnailOf (path : string) (w h : Z) : Raster :=
  Sharp.resized (oriented path w h) CELL_WIDTH CELL_HEIGHT
    {| fit := contain; background := WHITE |}.


(** Character data that cannot disturb the markup around it: none of
    [<], [>], the two quotes, and every [&] opens one of the five
    entities. *)
Fixpoint wellEscaped (s : string) : bool :=
  match s with
  | EmptyString => true
  | String c rest =>
      negb (existsb (Ascii.eqb c) ["<"; ">"; "034"; "'"]%char)
      && (if Ascii.eqb c "&"
          then existsb (fun tail => String.prefix tail rest)
                 ["amp;"; "lt;"; "gt;"; "quot;"; "apos;"]%string
          else true)
      && wellEscaped rest
  end.

(** The metadata field a footer line shows. *)
Definition field_of (serialNumber laboratory date notes : option string) (f : Field)
  : option string :=
  match f with
  | Serial => serialNumber | Laboratory => laboratory | Date => date | Notes => notes
  end.

(** ** A sample roll *)

Module Sample.
Local Open Scope string_scope.

Definition listing : list string :=
  ["IMG_0001.jpg"; "IMG_0002.JPG"; "notes.txt"; "IMG_0003.jpeg"; "portrait.jpg";
   "scan.Jpg"; ".jpg"; "IMG_0004.JPEG"; "bad.jpg"; "cut.jpg"; "IMG_0005.jpg";
   "IMG_0006.jpg"; "archive.jpg.zip"].

Definition readdir (directory : string) : Completion (list string) :=
  if directory =? "/roll" then Return listing
  else Throw ("ENOENT: no such file or directory, scandir '" ++ directory ++ "'").

Definition disk : Disk := fun path =>
  if path =? "/roll/portrait.jpg" then Picture 2000 3000
  else if path =? "/roll/bad.jpg"
       then Unreadable "Input file contains unsupported image format"
  else if path =? "/roll/cut.jpg"
       then Damaged 3000 2000 "VipsJpeg: Premature end of JPEG file"
  else Picture 3000 2000.

Definition file (name : string) : ImageFile :=
  {| filename := name; fullPath := Path.join "/roll" name |}.

(** Seven decodable images: one full row and the start of the next. *)
Definition good : list ImageFile :=
  map file ["IMG_0001.jpg"; "IMG_0002.JPG"; "IMG_0003.jpeg"; "portrait.jpg";
            "IMG_0004.JPEG"; "IMG_0005.jpg"; "IMG_0006.jpg"].

(** Ten images, the fourth of which is not an image. *)
Definition ten : list ImageFile :=
  map file ["a.jpg"; "b.jpg"; "c.jpg"; "bad.jpg"; "e.jpg"; "f.jpg"; "portrait.jpg";
            "h.jpg"; "i.jpg"; "j.jpg"].

Definition labelled : Metadata :=
  {| serialNumber := Some "CS-001"; laboratory := None;
     date := Some "2024"; notes := None |}.

Definition unlabelled : Metadata :=
  {| serialNumber := None; laboratory := Some ""; date := None; notes := None |}.

End Sample.

(** The horizontal extent of an overlay, and two overlays that share no
    pixel. *)
Definition overlay_width (c : Composite) : Z :=
  match input c with
  | thumbnailBuffer image => raster_width image
  | svgBuffer overlay => svg_width overlay
  end.
Definition overlay_right (c : Composite) : Z := left c + overlay_width c.
Definition apart (a b : Composite) : Prop :=
  overlay_right a <= left b \/ overlay_right b <= left a
  \/ overlay_bottom a <= top b \/ overlay_bottom b <= top a.

(** ** Prompts *)

(** [String.prototype.trim] on UTF-8 text: the white space and line
    terminators of ECMAScript, by their encodings. *)
Module JSString.

(** TAB, LF, VT, FF, CR, SPACE. *)
Definition ws1 (c : ascii) : bool :=
  existsb (Ascii.eqb c) ["009"; "010"; "011"; "012"; "013"; "032"]%char.

(** U+00A0. *)
Definition ws2 (c1 c2 : ascii) : bool :=
  Ascii.eqb c1 "194" && Ascii.eqb c2 "160".

(** U+1680, U+2000..U+200A, U+2028, U+2029, U+202F, U+205F, U+3000,
    U+FEFF. *)
Definition ws3 (c1 c2 c3 : ascii) : bool :=
  (Ascii.eqb c1 "225" && Ascii.eqb c2 "154" && Ascii.eqb c3 "128")
  || (Ascii.eqb c1 "226" && Ascii.eqb c2 "128"
      && ((N.leb 128 (N_of_ascii c3) && N.leb (N_of_ascii c3) 138)
          || Ascii.eqb c3 "168" || Ascii.eqb c3 "169" || Ascii.eqb c3 "175"))
  || (Ascii.eqb c1 "226" && Ascii.eqb c2 "129" && Ascii.eqb c3 "159")
  || (Ascii.eqb c1 "227" && Ascii.eqb c2 "128" && Ascii.eqb c3 "128")
  || (Ascii.eqb c1 "239" && Ascii.eqb c2 "187" && Ascii.eqb c3 "191").

(** Drops leading white space; [w2] and [w3] recognise the encodings of
    two and three bytes in the order the bytes are met. *)
Fixpoint strip (w2 : ascii -> ascii -> bool) (w3 : ascii -> ascii -> ascii -> bool)
    (s : string) : string :=
  match s with
  | EmptyString => EmptyString
  | String c1 r1 =>
      if ws1 c1 then strip w2 w3 r1
      else match r1 with
           | EmptyString => s
           | String c2 r2 =>
               if w2 c1 c2 then strip w2 w3 r2
               else match r2 with
                    | EmptyString => s
                    | String c3 r3 => if w3 c1 c2 c3 then strip w2 w3 r3 else s
                    end
           end
  end.

Definition reverse (s : string) : string :=
  string_of_list_ascii (rev (list_ascii_of_string s)).

Definition trimStart (s : string) : string := strip ws2 ws3 s.

Definition trimEnd (s : string) : string :=
  reverse (strip (fun a b => ws2 b a) (fun a b c => ws3 c b a) (reverse s)).

Definition trim (s : string) : string := trimEnd (trimStart s).

End JSString.

(** [question(rl, query)]: [rl] gives the line typed at a prompt. *)
Definition question (rl : string -> string) (query : string) : option string :=
  let answer := rl query in
  JS.truthy (Some (JSString.trim answer)).

(** ** The unused text overlay *)

(** [createTextSVG]; [fontSize] and [color] default to 10 and black. *)
Definition createTextSVG (text : string) (width height : Z)
    (fontSize : option Z) (color : option string) : string :=
  let fontSize := match fontSize with Some n => n | None => 10 end in
  let color := match color with Some c => c | None => "black"%string end in
  let escapedText :=
    JS.replace_all "'" "&apos;"
      (JS.replace_all "034" "&quot;"
        (JS.replace_all ">" "&gt;"
          (JS.replace_all "<" "&lt;"
            (JS.replace_all "&" "&amp;" text)))) in
  (JS.newline ++ "    <svg" ++ Markup.attr "width" (JS.template width)
     ++ Markup.attr "height" (JS.template height) ++ ">"
   ++ JS.newline ++ "      <rect" ++ Markup.attr "width" (JS.template width)
     ++ Markup.attr "height" (JS.template height)
     ++ Markup.attr "fill" "white" ++ "/>"
   ++ JS.newline ++ "      <text"
     ++ Markup.attr "x" "50%" ++ Markup.attr "y" "50%"
     ++ Markup.attr "font-family" "Arial, sans-serif"
     ++ Markup.attr "font-size" (JS.template fontSize)
     ++ Markup.attr "fill" color
     ++ Markup.attr "text-anchor" "middle"
     ++ Markup.attr "dominant-baseline" "middle"
     ++ Markup.attr "style" "font-weight: 300;" ++ ">"
   ++ JS.newline ++ "        " ++ escapedText
   ++ JS.newline ++ "      </text>"
   ++ JS.newline ++ "    </svg>" ++ JS.newline ++ "  ")%string.

(** ** The program *)

(** A line on one of the two output streams, without frame or
    pictograph. *)
Inductive Line :=
| stdout (text : string)
| stderr (text : string).

(** What the program meets outside itself. *)
Record Process := {
  arguments : list string;                   (* [process.argv.slice(2)] *)
  resolvePath : string -> string;            (* [path.resolve] *)
  statDirectory : string -> Completion bool; (* [fs.stat], then [isDirectory()] *)
  listDirectory : string -> Completion (list string); (* [fs.readdir] *)
  files : Disk;
  typed : string -> string;                  (* the line typed at a prompt *)
  clock : Z;                                 (* [Date.now()] *)
  writeFile : string -> Completion unit      (* encoding and writing the sheet *)
}.

Record Written := {
  outputPath : string;
  contactSheet : Sheet;
  quality : Z;
  chromaSubsampling : string
}.

(** A run: the exit code given to [process.exit], if it was called, what
    was printed, and the file written. *)
Record Run := {
  exitCode : option Z;
  printed : list Line;
  saved : option Written
}.

Definition lineOf (e : ConsoleEntry) : Line :=
  match e with
  | console_log message => stdout message
  | console_warn message => stderr message
  end.

Definition exit1 (out : list Line) : Run :=
  {| exitCode := Some 1; printed := out; saved := None |}.

(** [main().catch(...)]. *)
Definition caught (out : list Line) (message : string) : Run :=
  exit1 (out ++ [stderr ("Error: " ++ message)%string]).

Definition outputFilename (now : Z) : string :=
  ("contact-sheet-" ++ JS.template now ++ ".jpg")%string.

Definition main (p : Process) : Run :=
  let out := [stdout "Printable Contact Sheet Generator";
              stdout "For Photographic Film Scans"]%string in
  match arguments p with
  | [] =>
      exit1 (out ++ [stderr "Error: You must provide a directory as argument";
                     stdout "Usage: npm start <directory-with-images>";
                     stdout "Example: npm start ./my-photos"]%string)
  | arg :: _ =>
      let directory := resolvePath p arg in
      match statDirectory p directory with
      | Throw _ =>
          exit1 (out ++ [stderr "Error: Directory does not exist or is not accessible"%string])
      | Return false =>
          exit1 (out ++ [stderr "Error: The provided path is not a directory"%string])
      | Return true =>
          let out := out ++ [stdout ("Scanning directory: " ++ directory)%string] in
          match getImages (listDirectory p) directory with
          | Throw message => caught out message
          | Return images =>
              if Z.of_nat (List.length images) =? 0
              then exit1 (out ++ [stderr "Error: No JPEG images found in directory"%string])
              else
                let out :=
                  out ++ [stdout ("Found " ++ JS.template (Z.of_nat (List.length images))
                                  ++ " image(s)")%string] in
                let out :=
                  if Z.of_nat (List.length images) >? MAX_IMAGES
                  then out ++ [stdout ("Only the first " ++ JS.template MAX_IMAGES
                                       ++ " images will be processed")%string]
                  else out in
                let out :=
                  out ++ [stdout "Please provide the following information";
                          stdout "(press Enter to skip any field):"]%string in
                let serialNumber := question (typed p) "Film roll number: " in
                let laboratory := question (typed p) "Scanned by: " in
                let date := question (typed p) "Approximate date of photos: " in
                let notes := question (typed p) "Notes: " in
                let out :=
                  out ++ [stdout "Film roll number: "; stdout "Scanned by: ";
                          stdout "Approximate date of photos: "; stdout "Notes: "]%string in
                let metadata :=
                  {| serialNumber := serialNumber; laboratory := laboratory;
                     date := date; notes := notes |} in
                let '(sheet, log) := createContactSheet (files p) images metadata in
                let out := out ++ map lineOf log in
                let outputPath := Path.join directory (outputFilename (clock p)) in
                match writeFile p outputPath with
                | Throw message => caught out message
                | Return _ =>
                    {| exitCode := None;
                       printed :=
                         out ++ [stdout "Contact sheet created successfully!";
                                 stdout ("File: " ++ outputPath);
                                 stdout ("Dimensions: " ++ JS.template IMAGE_SIZE ++ "x"
                                         ++ JS.template IMAGE_SIZE
                                         ++ " pixels (120x120mm @ 300 DPI)");
                                 stdout "This image is ready to print at 120x120mm format"]%string;
                       saved := Some {| outputPath := outputPath; contactSheet := sheet;
                                        quality := 95; chromaSubsampling := "4:4:4" |} |}
                end
          end
      end
  end.

(** The white space [trim] removes, each by its UTF-8 encoding. *)
Definition utf8 (bytes : list N) : string :=
  string_of_list_ascii (map ascii_of_N bytes).

Definition whiteSpace : list string :=
  map utf8
    ([[9]; [10]; [11]; [12]; [13]; [32]; [194; 160]; [225; 154; 128]]
     ++ map (fun n => [226; 128; n]) [128; 129; 130; 131; 132; 133; 134; 135; 136; 137; 138]
     ++ [[226; 128; 168]; [226; 128; 169]; [226; 128; 175]; [226; 129; 159];
         [227; 128; 128]; [239; 187; 191]])%N.

(** Text made of white space only. *)
Definition blank (s : string) : Prop :=
  exists ws, Forall (fun w => In w whiteSpace) ws /\ s = String.concat "" ws.

Definition startsWithSpace (s : string) : bool :=
  existsb (fun w => String.prefix w s) whiteSpace.
Definition endsWithSpace (s : string) : bool :=
  existsb (fun w => String.prefix (JSString.reverse w) (JSString.reverse s)) whiteSpace.

(** Text without any of the five metacharacters. *)
Definition isMeta (c : ascii) : bool :=
  existsb (Ascii.eqb c) ["&"; "<"; ">"; "034"; "'"]%char.
Fixpoint clean (s : string) : bool :=
  match s with
  | EmptyString => true
  | String c rest => negb (isMeta c) && clean rest
  end.

(** Reading escaped text back: each of the five entities becomes its
    character again. *)
Fixpoint unescapeXml (s : string) : string :=
  match s with
  | EmptyString => EmptyString
  | String c r =>
      if Ascii.eqb c "&" then
        match r with
        | String c1 (String c2 (String c3 r3)) =>
            if Ascii.eqb c1 "l" && Ascii.eqb c2 "t" && Ascii.eqb c3 ";"
            then String "<" (unescapeXml r3)
            else if Ascii.eqb c1 "g" && Ascii.eqb c2 "t" && Ascii.eqb c3 ";"
            then String ">" (unescapeXml r3)
            else
              match r3 with
              | String c4 r4 =>
                  if Ascii.eqb c1 "a" && Ascii.eqb c2 "m" && Ascii.eqb c3 "p"
                     && Ascii.eqb c4 ";"
                  then String "&" (unescapeXml r4)
                  else
                    match r4 with
                    | String c5 r5 =>
                        if Ascii.eqb c1 "q" && Ascii.eqb c2 "u" && Ascii.eqb c3 "o"
                           && Ascii.eqb c4 "t" && Ascii.eqb c5 ";"
                        then String "034" (unescapeXml r5)
                        else if Ascii.eqb c1 "a" && Ascii.eqb c2 "p" && Ascii.eqb c3 "o"
                                && Ascii.eqb c4 "s" && Ascii.eqb c5 ";"
                        then String "'" (unescapeXml r5)
                        else String c (unescapeXml r)
                    | EmptyString => String c (unescapeXml r)
                    end
              | EmptyString => String c (unescapeXml r)
              end
        | _ => String c (unescapeXml r)
        end
      else String c (unescapeXml r)
  end.

(** Case analysis on which of the four fields are truthy. *)
Ltac truthy_cases s l d n :=
  destruct (JS.truthy s), (JS.truthy l), (JS.truthy d), (JS.truthy n).

(** * Properties *)

(** ** Canvas size *)



Lemma IMAGE_SIZE_value : IMAGE_SIZE = 1417.
Proof. vm_compute. reflexivity. Qed.



(** ** The loop over the images *)

Lemma processImages_placed (disk : Disk) (images : list ImageFile) :
  forall i st, 0 <= i ->
    processImages disk images i st
    = {| compositeImages := compositeImages st ++ placed disk images i;
         console := console st ++ skipped disk images |}.
Proof.
  induction images as [|image rest IH]; intros i st Hi; simpl.
  - rewrite !app_nil_r. now destruct st.
  - rewrite IH by lia.
    assert (Hrem : Z.rem i GRID_COLS = cell_col i).
    { unfold cell_col, GRID_COLS. apply Z.rem_mod_nonneg; lia. }
    rewrite Hrem.
    destruct (thumbnail disk image) as [buffer|message]; simpl;
      rewrite <- ?app_assoc; reflexivity.
Qed.

Lemma createContactSheet_composite disk images metadata :
  composite (fst (createContactSheet disk images metadata))
  = placed disk images 0 ++ footerOverlays metadata.
Proof.
  unfold createContactSheet, footerOverlays.
  rewrite processImages_placed by lia. simpl.
  destruct (anyField metadata); simpl.
  - rewrite <- app_assoc. reflexivity.
  - now rewrite app_nil_r.
Qed.

Lemma createContactSheet_create disk images metadata :
  create (fst (createContactSheet disk images metadata))
  = {| create_width := IMAGE_SIZE; create_height := IMAGE_SIZE;
       channels := 3; create_background := WHITE |}.
Proof. reflexivity. Qed.

Lemma placed_overlays_nil disk images : forall i,
  filter (fun c => negb (isThumbnail c)) (placed disk images i) = [].
Proof.
  induction images as [|image rest IH]; intros i; simpl; [reflexivity|].
  rewrite filter_app, IH. destruct (thumbnail disk image); reflexivity.
Qed.

Lemma createContactSheet_console disk images metadata :
  warnings (snd (createContactSheet disk images metadata))
  = warnings (skipped disk images).
Proof.
  unfold createContactSheet.
  rewrite processImages_placed by lia. reflexivity.
Qed.

Lemma thumbnail_Picture disk image w h :
  disk (fullPath image) = Picture w h ->
  thumbnail disk image
  = Return (fold_left Sharp.apply (picture_pipeline w h)
              (Sharp.decoded (fullPath image) w h)).
Proof.
  intros H. unfold thumbnail, Sharp.metadata, Sharp.toBuffer, picture_pipeline.
  simpl. rewrite H. simpl.
  destruct (h >? w); simpl; rewrite H; reflexivity.
Qed.

Lemma placed_isThumbnail disk images : forall i,
  filter isThumbnail (placed disk images i) = placed disk images i.
Proof.
  induction images as [|image rest IH]; intros i; simpl; [reflexivity|].
  rewrite filter_app, IH.
  destruct (thumbnail disk image); reflexivity.
Qed.

Lemma footerOverlays_not_thumbnails metadata :
  filter isThumbnail (footerOverlays metadata) = [].
Proof. unfold footerOverlays. destruct (anyField metadata); reflexivity. Qed.

Lemma thumbnails_placed disk images metadata :
  thumbnails (fst (createContactSheet disk images metadata)) = placed disk images 0.
Proof.
  unfold thumbnails. rewrite createContactSheet_composite, filter_app.
  rewrite placed_isThumbnail, footerOverlays_not_thumbnails. apply app_nil_r.
Qed.

Lemma placed_all_decodable disk images : forall i,
  (forall image, In image images -> exists w h, disk (fullPath image) = Picture w h) ->
  List.length (placed disk images i) = List.length images
  /\ forall (k : nat) image, nth_error images k = Some image ->
       exists buffer,
         thumbnail disk image = Return buffer
         /\ nth_error (placed disk images i) k
            = Some {| input := thumbnailBuffer buffer;
                      top := origin_y (i + Z.of_nat k);
                      left := origin_x (i + Z.of_nat k) |}.
Proof.
  induction images as [|image rest IH]; intros i Hall.
  - split; [reflexivity|]. intros [|k] im Hk; discriminate.
  - destruct (Hall image (or_introl eq_refl)) as (w & h & Hd).
    destruct (IH (i + 1) (fun im Hin => Hall im (or_intror Hin))) as [Hlen Hnth].
    simpl. rewrite (thumbnail_Picture _ _ _ _ Hd). simpl.
    split; [now rewrite Hlen|].
    intros [|k] im Hk; simpl in Hk.
    + injection Hk as <-. eexists. split; [apply thumbnail_Picture, Hd|].
      simpl. now rewrite Z.add_0_r.
    + destruct (Hnth k im Hk) as (buffer & Hb & Hn).
      exists buffer. split; [exact Hb|]. simpl. rewrite Hn.
      now replace (i + 1 + Z.of_nat k) with (i + Z.of_nat (S k)) by lia.
Qed.

Lemma origin_injective i j :
  0 <= i -> 0 <= j ->
  (origin_x i, origin_y i) = (origin_x j, origin_y j) -> i = j.
Proof.
  unfold origin_x, origin_y, cell_col, cell_row, GRID_COLS, MARGIN,
    CELL_WIDTH, CELL_HEIGHT, CELL_PADDING.
  intros Hi Hj H. apply pair_equal_spec in H as [Hx Hy].
  pose proof (Z.div_mod i 6 ltac:(lia)) as Di.
  pose proof (Z.div_mod j 6 ltac:(lia)) as Dj.
  lia.
Qed.

(** ** Placement *)

(** C1: with N decodable images, 1 <= N <= 36, the sheet has exactly N
    thumbnails; the i-th one shows the i-th image and lies at the origin
    of row [i div cols], column [i mod cols], both inside the grid; no
    two thumbnails share a cell. *)
Theorem C1_row_major_cells : forall disk images metadata,
  (1 <= List.length images <= 36)%nat ->
  (forall image, In image images -> exists w h, disk (fullPath image) = Picture w h) ->
  let sheet := fst (createContactSheet disk images metadata) in
  List.length (thumbnails sheet) = List.length images
  /\ (forall (i : nat) image, nth_error images i = Some image ->
        let row := Z.of_nat i / GRID_COLS in
        let col := Z.of_nat i mod GRID_COLS in
        0 <= row < GRID_ROWS /\ 0 <= col < GRID_COLS
        /\ exists buffer,
             thumbnail disk image = Return buffer
             /\ nth_error (thumbnails sheet) i
                = Some {| input := thumbnailBuffer buffer;
                          top := MARGIN + row * (CELL_HEIGHT + CELL_PADDING);
                          left := MARGIN + col * (CELL_WIDTH + CELL_PADDING) |})
  /\ (forall (i j : nat) ci cj,
        nth_error (thumbnails sheet) i = Some ci ->
        nth_error (thumbnails sheet) j = Some cj ->
        (left ci, top ci) = (left cj, top cj) -> i = j).
Proof.
  intros disk images metadata Hn Hall sheet. subst sheet.
  rewrite thumbnails_placed.
  destruct (placed_all_decodable disk images 0 Hall) as [Hlen Hnth].
  assert (Hat : forall (i : nat) c, nth_error (placed disk images 0) i = Some c ->
            (left c, top c) = (origin_x (Z.of_nat i), origin_y (Z.of_nat i))).
  { intros i c Hc.
    assert (Hi : (i < List.length images)%nat).
    { rewrite <- Hlen. apply nth_error_Some. congruence. }
    destruct (nth_error images i) as [image|] eqn:Him;
      [|apply nth_error_None in Him; lia].
    destruct (Hnth i image Him) as (buffer & _ & Hp). simpl in Hp.
    rewrite Hp in Hc. injection Hc as <-. reflexivity. }
  split; [exact Hlen|split].
  - intros i image Him row col.
    assert (Hi : (i < List.length images)%nat).
    { apply nth_error_Some. congruence. }
    assert (Hrow : 0 <= row < GRID_ROWS).
    { subst row. unfold GRID_ROWS, GRID_COLS. split.
      - apply Z.div_pos; lia.
      - apply Z.div_lt_upper_bound; lia. }
    assert (Hcol : 0 <= col < GRID_COLS).
    { subst col. unfold GRID_COLS. apply Z.mod_pos_bound. lia. }
    split; [exact Hrow|split; [exact Hcol|]].
    destruct (Hnth i image Him) as (buffer & Hb & Hp).
    exists buffer. split; [exact Hb|]. exact Hp.
  - intros i j ci cj Hi Hj Heq.
    rewrite (Hat i ci Hi), (Hat j cj Hj) in Heq.
    apply origin_injective in Heq; lia.
Qed.

Lemma C1_row_major_cells_witness :
  List.length (thumbnails (fst (createContactSheet Sample.disk Sample.good Sample.labelled)))
  = 7%nat.
Proof.
  refine (proj1 (C1_row_major_cells Sample.disk Sample.good Sample.labelled _ _)).
  - simpl. lia.
  - intros image Hin. simpl in Hin.
    repeat (destruct Hin as [<-|Hin]; [do 2 eexists; reflexivity|]).
    destruct Hin.
Defined.

(** ** Footer geometry *)

Lemma truthy_present v : (exists s, JS.truthy v = Some s) <-> present v.
Proof.
  unfold JS.truthy, present. split.
  - intros [s H]. destruct v as [t|]; [|discriminate].
    destruct (String.eqb_spec t ""); [discriminate|].
    exists t. now split.
  - intros (s & -> & Hs). exists s.
    destruct (String.eqb_spec s ""); [contradiction|reflexivity].
Qed.

Lemma truthy_absent v : JS.truthy v = None <-> ~ present v.
Proof.
  rewrite <- truthy_present. split.
  - intros H [s Hs]. congruence.
  - intros H. destruct (JS.truthy v) as [s|]; [|reflexivity].
    exfalso. apply H. now exists s.
Qed.

Lemma anyField_present metadata :
  anyField metadata = true
  <-> present (serialNumber metadata) \/ present (laboratory metadata)
      \/ present (date metadata) \/ present (notes metadata).
Proof.
  unfold anyField. rewrite <- !truthy_present.
  truthy_cases (serialNumber metadata) (laboratory metadata)
    (date metadata) (notes metadata);
    split; intros H; try reflexivity; try discriminate; eauto 6.
  destruct H as [[? ?]|[[? ?]|[[? ?]|[? ?]]]]; discriminate.
Qed.

Lemma createFooterSVG_size s l d n w h :
  svg_width (createFooterSVG s l d n w h) = w
  /\ svg_height (createFooterSVG s l d n w h) = h.
Proof.
  unfold createFooterSVG. truthy_cases s l d n; split; reflexivity.
Qed.

(** C2 (the code departs from it): the footer block is composited at
    [MARGIN + GRID_HEIGHT + 20], but its height is what remains between
    [MARGIN + GRID_HEIGHT] and the bottom margin; it therefore ends 20
    pixels below the bottom margin, 8 pixels below the canvas. *)
Theorem C2_footer_overruns_margin : forall disk images metadata,
  anyField metadata = true ->
  exists footer,
    In footer (composite (fst (createContactSheet disk images metadata)))
    /\ input footer
       = svgBuffer (createFooterSVG (serialNumber metadata) (laboratory metadata)
                      (date metadata) (notes metadata) 1393 323)
    /\ top footer = MARGIN + GRID_HEIGHT + 20
    /\ overlay_height footer = IMAGE_SIZE - (MARGIN + GRID_HEIGHT) - MARGIN
    /\ MARGIN + GRID_HEIGHT + overlay_height footer = IMAGE_SIZE - MARGIN
    /\ overlay_height footer <> IMAGE_SIZE - top footer - MARGIN
    /\ overlay_bottom footer = IMAGE_SIZE - MARGIN + 20
    /\ overlay_bottom footer = 1425
    /\ IMAGE_SIZE - MARGIN = 1405
    /\ IMAGE_SIZE < overlay_bottom footer.
Proof.
  intros disk images metadata Hany.
  eexists. split.
  - rewrite createContactSheet_composite. apply in_or_app. right.
    unfold footerOverlays. rewrite Hany. left. reflexivity.
  - unfold overlay_bottom, overlay_height. cbn [input top].
    rewrite (proj2 (createFooterSVG_size _ _ _ _ _ _)), IMAGE_SIZE_value.
    unfold MARGIN, GRID_HEIGHT, GRID_ROWS, CELL_HEIGHT, CELL_PADDING.
    repeat (split; [first [reflexivity | lia]|]). lia.
Qed.

Lemma C2_footer_overruns_margin_witness :
  exists footer,
    In footer (composite (fst (createContactSheet Sample.disk Sample.good Sample.labelled)))
    /\ overlay_bottom footer = 1425.
Proof.
  destruct (C2_footer_overruns_margin Sample.disk Sample.good Sample.labelled eq_refl)
    as (footer & Hin & _ & _ & _ & _ & _ & _ & Hb & _).
  exists footer. split; assumption.
Defined.

(** ** Footer content *)

Lemma createFooterSVG_body s l d n w h :
  svg_body (createFooterSVG s l d n w h) = stack 60 (present_lines s l d n).
Proof.
  unfold createFooterSVG, present_lines. cbn [flat_map fst snd].
  truthy_cases s l d n; reflexivity.
Qed.

Lemma present_lines_nonempty metadata :
  anyField metadata = true ->
  present_lines (serialNumber metadata) (laboratory metadata)
    (date metadata) (notes metadata) <> [].
Proof.
  unfold anyField, present_lines. cbn [flat_map fst snd].
  truthy_cases (serialNumber metadata) (laboratory metadata)
    (date metadata) (notes metadata);
    intros H; try discriminate H; discriminate.
Qed.

Lemma placed_no_overlay disk images : forall i c,
  In c (placed disk images i) -> isFooterBlock c = false /\ isRule c = false.
Proof.
  induction images as [|image rest IH]; intros i c Hin; simpl in Hin; [destruct Hin|].
  apply in_app_or in Hin as [Hin|Hin]; [|eauto].
  destruct (thumbnail disk image); [|destruct Hin].
  destruct Hin as [<-|[]]. split; reflexivity.
Qed.

(** C7: the footer block and the separator rule are composited exactly
    when a metadata field is present; when none is, the sheet is the one
    with a blank footer band and no rule. *)
Theorem C7_footer_iff_metadata : forall disk images metadata,
  let sheet := fst (createContactSheet disk images metadata) in
  let labelled :=
    present (serialNumber metadata) \/ present (laboratory metadata)
    \/ present (date metadata) \/ present (notes metadata) in
  (labelled <-> exists c, In c (composite sheet) /\ isFooterBlock c = true)
  /\ (labelled <-> exists c, In c (composite sheet) /\ isRule c = true)
  /\ (labelled -> overlays sheet = footerOverlays metadata
                  /\ List.length (overlays sheet) = 2%nat)
  /\ (~ labelled -> sheet = blankFooterSheet disk images).
Proof.
  intros disk images metadata sheet labelled.
  assert (Hsheet : sheet = {| create := create (blankFooterSheet disk images);
                              composite := placed disk images 0 ++ footerOverlays metadata |}).
  { subst sheet. rewrite <- createContactSheet_composite.
    destruct (createContactSheet disk images metadata) as [[c cs] log] eqn:E.
    pose proof (createContactSheet_create disk images metadata) as Hc.
    rewrite E in Hc. simpl in *. now subst c. }
  subst labelled. rewrite <- anyField_present.
  assert (Hback : forall test, (forall c, In c (composite sheet) -> test c = true ->
                    In c (footerOverlays metadata)) ->
            (exists c, In c (composite sheet) /\ test c = true) -> anyField metadata = true).
  { intros test Hin (c & Hc & Ht). specialize (Hin c Hc Ht).
    unfold footerOverlays in Hin. destruct (anyField metadata); [reflexivity|destruct Hin]. }
  assert (Hsplit : forall c, In c (composite sheet) ->
            In c (placed disk images 0) \/ In c (footerOverlays metadata)).
  { intros c Hc. rewrite Hsheet in Hc. now apply in_app_or in Hc. }
  split; [split|split; [split|split]].
  - intros Hany. eexists. split.
    + rewrite Hsheet. cbn [composite]. apply in_or_app. right.
      unfold footerOverlays. rewrite Hany. left. reflexivity.
    + unfold isFooterBlock. cbn [input]. rewrite createFooterSVG_body.
      pose proof (present_lines_nonempty metadata Hany) as Hne.
      destruct (present_lines _ _ _ _) as [|[f v] rest]; [contradiction|reflexivity].
  - apply Hback. intros c Hc Ht.
    destruct (Hsplit c Hc) as [Hp|Hf]; [|exact Hf].
    apply placed_no_overlay in Hp. destruct Hp; congruence.
  - intros Hany. eexists. split.
    + rewrite Hsheet. cbn [composite]. apply in_or_app. right.
      unfold footerOverlays. rewrite Hany. right. left. reflexivity.
    + reflexivity.
  - apply Hback. intros c Hc Ht.
    destruct (Hsplit c Hc) as [Hp|Hf]; [|exact Hf].
    apply placed_no_overlay in Hp. destruct Hp; congruence.
  - intros Hany. unfold overlays. rewrite Hsheet. cbn [composite]. rewrite filter_app.
    rewrite placed_overlays_nil. unfold footerOverlays. rewrite Hany.
    split; reflexivity.
  - intros Hno. rewrite Hsheet. unfold blankFooterSheet, footerOverlays. cbn [create].
    destruct (anyField metadata); [now contradiction Hno|].
    now rewrite app_nil_r.
Qed.

Lemma C7_footer_iff_metadata_witness :
  fst (createContactSheet Sample.disk Sample.good Sample.unlabelled)
  = blankFooterSheet Sample.disk Sample.good.
Proof.
  apply (proj2 (proj2 (proj2
           (C7_footer_iff_metadata Sample.disk Sample.good Sample.unlabelled)))).
  intros [H|[H|[H|H]]]; destruct H as (s & E & Hs); try discriminate E.
  injection E as <-. now apply Hs.
Defined.

(** ** Failing images *)

Lemma placed_In disk images : forall i c,
  In c (placed disk images i)
  <-> exists (k : nat) image buffer,
        nth_error images k = Some image
        /\ thumbnail disk image = Return buffer
        /\ c = {| input := thumbnailBuffer buffer;
                  top := origin_y (i + Z.of_nat k);
                  left := origin_x (i + Z.of_nat k) |}.
Proof.
  induction images as [|image rest IH]; intros i c; simpl.
  - split; [intros []|]. intros ([|k] & im & b & Hk & _); discriminate.
  - rewrite in_app_iff, IH. split.
    + intros [Hh|(k & im & b & Hk & Hb & ->)].
      * destruct (thumbnail disk image) as [buffer|] eqn:Hb; [|destruct Hh].
        destruct Hh as [<-|[]]. exists 0%nat, image, buffer.
        rewrite Z.add_0_r. now repeat split.
      * exists (S k), im, b. repeat split; [assumption..|].
        now replace (i + 1 + Z.of_nat k) with (i + Z.of_nat (S k)) by lia.
    + intros ([|k] & im & b & Hk & Hb & ->); simpl in Hk.
      * injection Hk as <-. left. rewrite Hb, Z.add_0_r. now left.
      * right. exists k, im, b. repeat split; [assumption..|].
        now replace (i + 1 + Z.of_nat k) with (i + Z.of_nat (S k)) by lia.
Qed.

Lemma placed_skipped_length disk images : forall i,
  (List.length (placed disk images i) + List.length (skipped disk images)
   = List.length images)%nat.
Proof.
  induction images as [|image rest IH]; intros i; simpl; [reflexivity|].
  rewrite !length_app. specialize (IH (i + 1)).
  destruct (thumbnail disk image); simpl; lia.
Qed.

Lemma skipped_one_bad disk : forall images (k : nat) bad message,
  nth_error images k = Some bad ->
  thumbnail disk bad = Throw message ->
  (forall (j : nat) image, j <> k -> nth_error images j = Some image ->
     exists w h, disk (fullPath image) = Picture w h) ->
  skipped disk images
  = [console_warn ("Error processing " ++ filename bad ++ ": " ++ message)%string].
Proof.
  induction images as [|image rest IH]; intros k bad message Hk Hbad Hothers.
  - destruct k; discriminate.
  - destruct k as [|k]; simpl in Hk |- *.
    + injection Hk as ->. rewrite Hbad. simpl. f_equal.
      assert (Hrest : forall image, In image rest ->
                exists w h, disk (fullPath image) = Picture w h).
      { intros im Hin. apply In_nth_error in Hin as [j Hj].
        apply (Hothers (S j) im); [lia|exact Hj]. }
      clear -Hrest. induction rest as [|im rest IH]; simpl; [reflexivity|].
      destruct (Hrest im (or_introl eq_refl)) as (w & h & Hd).
      rewrite (thumbnail_Picture _ _ _ _ Hd). simpl.
      apply IH. intros. apply Hrest. now right.
    + destruct (Hothers 0%nat image ltac:(lia) eq_refl) as (w & h & Hd).
      rewrite (thumbnail_Picture _ _ _ _ Hd). simpl.
      apply (IH k bad message Hk Hbad).
      intros j im Hj Him. apply (Hothers (S j) im); [lia|exact Him].
Qed.

(** C10: when the image of index [k] cannot be processed and every
    other one can, only that image is skipped: the sheet still comes
    out, one thumbnail short; every other image lies in the cell of its
    own index; no thumbnail lies in cell [k]; one warning names the
    file. *)
Theorem C10_bad_image_skipped : forall disk images metadata (k : nat) bad message,
  nth_error images k = Some bad ->
  thumbnail disk bad = Throw message ->
  (forall (j : nat) image, j <> k -> nth_error images j = Some image ->
     exists w h, disk (fullPath image) = Picture w h) ->
  let sheet := fst (createContactSheet disk images metadata) in
  let console := snd (createContactSheet disk images metadata) in
  create sheet = {| create_width := IMAGE_SIZE; create_height := IMAGE_SIZE;
                    channels := 3; create_background := WHITE |}
  /\ (List.length (thumbnails sheet) + 1 = List.length images)%nat
  /\ (forall (j : nat) image, j <> k -> nth_error images j = Some image ->
        exists buffer,
          thumbnail disk image = Return buffer
          /\ In {| input := thumbnailBuffer buffer;
                   top := origin_y (Z.of_nat j); left := origin_x (Z.of_nat j) |}
                (thumbnails sheet))
  /\ (forall c, In c (thumbnails sheet) ->
        (left c, top c) <> (origin_x (Z.of_nat k), origin_y (Z.of_nat k)))
  /\ warnings console
     = [("Error processing " ++ filename bad ++ ": " ++ message)%string].
Proof.
  intros disk images metadata k bad message Hk Hbad Hothers sheet console.
  subst sheet console.
  rewrite thumbnails_placed, createContactSheet_console.
  pose proof (skipped_one_bad disk images k bad message Hk Hbad Hothers) as Hs.
  split; [apply createContactSheet_create|split; [|split; [|split]]].
  - pose proof (placed_skipped_length disk images 0) as Hl.
    rewrite Hs in Hl. simpl in Hl. lia.
  - intros j image Hj Him.
    destruct (Hothers j image Hj Him) as (w & h & Hd).
    eexists. split; [apply (thumbnail_Picture _ _ _ _ Hd)|].
    apply placed_In. exists j, image. eexists.
    split; [exact Him|split; [apply (thumbnail_Picture _ _ _ _ Hd)|reflexivity]].
  - intros c Hc Heq. apply placed_In in Hc as (j & im & b & Hj & Hb & ->).
    cbn [left top] in Heq. apply origin_injective in Heq; [|lia..].
    assert (j = k) by lia. subst j. congruence.
  - rewrite Hs. reflexivity.
Qed.

Lemma C10_bad_image_skipped_witness :
  List.length (thumbnails (fst (createContactSheet Sample.disk Sample.ten Sample.labelled)))
  = 9%nat
  /\ warnings (snd (createContactSheet Sample.disk Sample.ten Sample.labelled))
     = ["Error processing bad.jpg: Input file contains unsupported image format"%string].
Proof.
  assert (Hothers : forall (j : nat) image, j <> 3%nat ->
            nth_error Sample.ten j = Some image ->
            exists w h, Sample.disk (fullPath image) = Picture w h).
  { intros j image Hj Him.
    do 10 (destruct j as [|j];
           [first [congruence
                  | injection Him as <-; do 2 eexists; reflexivity]|]).
    destruct j; discriminate. }
  destruct (C10_bad_image_skipped Sample.disk Sample.ten Sample.labelled 3
              (Sample.file "bad.jpg")
              "Input file contains unsupported image format"
              eq_refl eq_refl Hothers) as (_ & Hlen & _ & _ & Hw).
  split; [|exact Hw].
  change (List.length Sample.ten) with 10%nat in Hlen. lia.
Defined.

(** ** Orientation and fit *)

Lemma thumbnail_thumbnailOf disk image w h :
  disk (fullPath image) = Picture w h ->
  thumbnail disk image = Return (thumbnailOf (fullPath image) w h).
Proof.
  intros H. rewrite (thumbnail_Picture _ _ _ _ H).
  unfold picture_pipeline, thumbnailOf, oriented.
  destruct (h >? w); reflexivity.
Qed.

Lemma resized_contain img W H bg :
  let fitted := contain_fit (raster_width img) (raster_height img) W H in
  Sharp.resized img W H {| fit := contain; background := bg |}
  = {| raster_source := raster_source img;
       raster_width := W;
       raster_height := H;
       turned := turned img;
       content_left := (W - fst fitted) / 2;
       content_top := (H - snd fitted) / 2;
       content_width := fst fitted;
       content_height := snd fitted;
       surround := bg |}.
Proof.
  unfold Sharp.resized. cbn [fit background].
  destruct (contain_fit (raster_width img) (raster_height img) W H). reflexivity.
Qed.

Lemma oriented_size path w h :
  raster_width (oriented path w h) = Z.max w h
  /\ raster_height (oriented path w h) = Z.min w h
  /\ turned (oriented path w h) = (if h >? w then 90 else 0).
Proof.
  unfold oriented. destruct (h >? w) eqn:E; cbn.
  - apply Z.gtb_lt in E. repeat split; lia.
  - assert (h <= w) by (rewrite Z.gtb_ltb in E; apply Z.ltb_ge in E; lia).
    repeat split; lia.
Qed.

Lemma round_div_le a b c : 0 < b -> a <= b * c -> round_div a b <= c.
Proof.
  intros Hb H. unfold round_div.
  apply Z.lt_succ_r, Z.div_lt_upper_bound; lia.
Qed.

Lemma round_div_ge a b c : 0 < b -> b * c <= a -> c <= round_div a b.
Proof.
  intros Hb H. unfold round_div.
  apply Z.div_le_lower_bound; lia.
Qed.

Lemma round_div_mul a b : 0 < a -> round_div (a * b) a = b.
Proof.
  intros Ha. apply Z.le_antisymm.
  - apply round_div_le; lia.
  - apply round_div_ge; lia.
Qed.

(** The nearest pixel: [round_div a b] is within half a unit of [a / b]. *)
Lemma round_div_nearest a b :
  0 < b -> - b < 2 * (b * round_div a b - a) <= b.
Proof.
  intros Hb. unfold round_div.
  pose proof (Z.div_mod (2 * a + b) (2 * b) ltac:(lia)) as D.
  pose proof (Z.mod_pos_bound (2 * a + b) (2 * b) ltac:(lia)) as M.
  lia.
Qed.

(** Contain fit uses one scale factor [num / den], the smaller of
    [W / w] and [H / h], for both sides. *)
Lemma contain_fit_scale w h W H :
  0 < w -> 0 < h -> 0 < W -> 0 < H ->
  exists num den,
    ((num, den) = (W, w) \/ (num, den) = (H, h))
    /\ 0 < den
    /\ num * w <= W * den /\ num * h <= H * den
    /\ contain_fit w h W H
       = (Z.max 1 (round_div (w * num) den), Z.max 1 (round_div (h * num) den)).
Proof.
  intros Hw Hh HW HH. unfold contain_fit.
  destruct (h * W <? w * H) eqn:E.
  - apply Z.ltb_lt in E. exists W, w. repeat split; try lia; [now left|].
    rewrite round_div_mul by lia. f_equal; lia.
  - apply Z.ltb_ge in E. exists H, h. repeat split; try lia; [now right|].
    rewrite round_div_mul by lia. f_equal; lia.
Qed.

Lemma contain_fit_bounds w h W H :
  0 < w -> 0 < h -> 0 < W -> 0 < H ->
  1 <= fst (contain_fit w h W H) <= W
  /\ 1 <= snd (contain_fit w h W H) <= H
  /\ (fst (contain_fit w h W H) = W \/ snd (contain_fit w h W H) = H).
Proof.
  intros Hw Hh HW HH. unfold contain_fit.
  destruct (h * W <? w * H) eqn:E; cbn [fst snd].
  - apply Z.ltb_lt in E.
    pose proof (round_div_le (h * W) w H Hw ltac:(lia)). lia.
  - apply Z.ltb_ge in E.
    pose proof (round_div_le (w * H) h W Hh ltac:(lia)). lia.
Qed.

Lemma contain_fit_landscape w h :
  0 < h <= w ->
  snd (contain_fit w h CELL_WIDTH CELL_HEIGHT)
  <= fst (contain_fit w h CELL_WIDTH CELL_HEIGHT).
Proof.
  intros Hwh.
  pose proof (contain_fit_bounds w h CELL_WIDTH CELL_HEIGHT) as B.
  unfold contain_fit, CELL_WIDTH, CELL_HEIGHT in *.
  destruct (h * 228 <? w * 175) eqn:E; cbn [fst snd] in *.
  - lia.
  - pose proof (round_div_ge (w * 175) h 175 ltac:(lia) ltac:(nia)). lia.
Qed.

(** C4: a source taller than wide is turned 90 degrees clockwise before
    it is resized; any other source is not turned; either way what is
    resized, and what the thumbnail shows, is at least as wide as high. *)
Theorem C4_portrait_rotated : forall disk image w h,
  disk (fullPath image) = Picture w h -> 0 < w -> 0 < h ->
  exists buffer,
    thumbnail disk image = Return buffer
    /\ buffer = Sharp.resized (oriented (fullPath image) w h) CELL_WIDTH CELL_HEIGHT
                  {| fit := contain; background := WHITE |}
    /\ (h > w -> oriented (fullPath image) w h
                 = Sharp.quarter_turn (Sharp.decoded (fullPath image) w h)
                 /\ turned buffer = 90)
    /\ (h <= w -> oriented (fullPath image) w h = Sharp.decoded (fullPath image) w h
                  /\ turned buffer = 0)
    /\ raster_height (oriented (fullPath image) w h)
       <= raster_width (oriented (fullPath image) w h)
    /\ content_height buffer <= content_width buffer.
Proof.
  intros disk image w h Hd Hw Hh.
  exists (thumbnailOf (fullPath image) w h).
  split; [now apply thumbnail_thumbnailOf|split; [reflexivity|]].
  destruct (oriented_size (fullPath image) w h) as (Ew & Eh & Et).
  assert (Hturn : turned (thumbnailOf (fullPath image) w h)
                  = turned (oriented (fullPath image) w h)).
  { unfold thumbnailOf. now rewrite resized_contain. }
  split; [|split; [|split]].
  - intros Hgt. rewrite Hturn, Et. unfold oriented.
    replace (h >? w) with true by (symmetry; apply Z.gtb_lt; lia). now split.
  - intros Hle. rewrite Hturn, Et. unfold oriented.
    replace (h >? w) with false
      by (symmetry; rewrite Z.gtb_ltb; apply Z.ltb_ge; lia). now split.
  - lia.
  - unfold thumbnailOf. rewrite resized_contain. cbn [content_width content_height].
    rewrite Ew, Eh. apply contain_fit_landscape. lia.
Qed.

Example thumbnail_samples :
  thumbnail Sample.disk (Sample.file "portrait.jpg")
  = Return {| raster_source := "/roll/portrait.jpg";
              raster_width := 228; raster_height := 175; turned := 90;
              content_left := 0; content_top := 11;
              content_width := 228; content_height := 152;
              surround := WHITE |}
  /\ thumbnail Sample.disk (Sample.file "cut.jpg")
     = Throw "VipsJpeg: Premature end of JPEG file"
  /\ thumbnail Sample.disk (Sample.file "bad.jpg")
     = Throw "Input file contains unsupported image format".
Proof. repeat split. Qed.

Lemma C4_portrait_rotated_witness :
  exists buffer,
    thumbnail Sample.disk (Sample.file "portrait.jpg") = Return buffer
    /\ turned buffer = 90.
Proof.
  destruct (C4_portrait_rotated Sample.disk (Sample.file "portrait.jpg") 2000 3000
              eq_refl eq_refl eq_refl) as (buffer & Hb & _ & Hrot & _).
  exists buffer. split; [exact Hb|]. apply Hrot. reflexivity.
Defined.

(** C5: the thumbnail is exactly one cell in size; the oriented source is
    scaled into it by one factor for both sides, the smaller of the two
    cell-to-source ratios, each side to the nearest pixel; the picture's
    box lies inside the cell, spans it on at least one axis, and what it
    leaves free is white. *)
Theorem C5_contain_fit : forall disk image w h,
  disk (fullPath image) = Picture w h -> 0 < w -> 0 < h ->
  exists buffer,
    thumbnail disk image = Return buffer
    /\ raster_width buffer = CELL_WIDTH /\ raster_height buffer = CELL_HEIGHT
    /\ surround buffer = WHITE
    /\ (exists num den,
          ((num, den) = (CELL_WIDTH, Z.max w h) \/ (num, den) = (CELL_HEIGHT, Z.min w h))
          /\ 0 < den
          /\ num * Z.max w h <= CELL_WIDTH * den
          /\ num * Z.min w h <= CELL_HEIGHT * den
          /\ content_width buffer = Z.max 1 (round_div (Z.max w h * num) den)
          /\ content_height buffer = Z.max 1 (round_div (Z.min w h * num) den))
    /\ 1 <= content_width buffer <= CELL_WIDTH
    /\ 1 <= content_height buffer <= CELL_HEIGHT
    /\ (content_width buffer = CELL_WIDTH /\ content_left buffer = 0
        \/ content_height buffer = CELL_HEIGHT /\ content_top buffer = 0)
    /\ 0 <= content_left buffer
    /\ content_left buffer + content_width buffer <= CELL_WIDTH
    /\ 0 <= content_top buffer
    /\ content_top buffer + content_height buffer <= CELL_HEIGHT.
Proof.
  intros disk image w h Hd Hw Hh.
  exists (thumbnailOf (fullPath image) w h).
  split; [now apply thumbnail_thumbnailOf|].
  unfold thumbnailOf. rewrite resized_contain.
  cbn [raster_width raster_height surround content_width content_height
       content_left content_top].
  destruct (oriented_size (fullPath image) w h) as (Ew & Eh & _).
  rewrite Ew, Eh.
  assert (HW : 0 < CELL_WIDTH) by reflexivity.
  assert (HH : 0 < CELL_HEIGHT) by reflexivity.
  destruct (contain_fit_scale (Z.max w h) (Z.min w h) CELL_WIDTH CELL_HEIGHT
              ltac:(lia) ltac:(lia) HW HH) as (num & den & Hnd & Hden & Hx & Hy & Hfit).
  destruct (contain_fit_bounds (Z.max w h) (Z.min w h) CELL_WIDTH CELL_HEIGHT
              ltac:(lia) ltac:(lia) HW HH) as (Bw & Bh & Btouch).
  set (fitted := contain_fit (Z.max w h) (Z.min w h) CELL_WIDTH CELL_HEIGHT) in *.
  split; [reflexivity|split; [reflexivity|split; [reflexivity|]]].
  split.
  { exists num, den. rewrite Hfit. cbn [fst snd]. now repeat split. }
  split; [exact Bw|split; [exact Bh|]].
  split.
  { destruct Btouch as [E|E]; [left|right]; split; try exact E;
      rewrite E, Z.sub_diag; reflexivity. }
  pose proof (Z.div_pos (CELL_WIDTH - fst fitted) 2 ltac:(lia) ltac:(lia)).
  pose proof (Z.div_pos (CELL_HEIGHT - snd fitted) 2 ltac:(lia) ltac:(lia)).
  pose proof (Z.div_le_upper_bound (CELL_WIDTH - fst fitted) 2
                (CELL_WIDTH - fst fitted) ltac:(lia) ltac:(lia)).
  pose proof (Z.div_le_upper_bound (CELL_HEIGHT - snd fitted) 2
                (CELL_HEIGHT - snd fitted) ltac:(lia) ltac:(lia)).
  repeat split; lia.
Qed.

Lemma C5_contain_fit_witness :
  exists buffer,
    thumbnail Sample.disk (Sample.file "IMG_0001.jpg") = Return buffer
    /\ content_width buffer = 228 /\ content_height buffer = 152
    /\ content_left buffer = 0 /\ content_top buffer = 11.
Proof.
  destruct (C5_contain_fit Sample.disk (Sample.file "IMG_0001.jpg") 3000 2000
              eq_refl eq_refl eq_refl) as (buffer & Hb & _).
  exists buffer. split; [exact Hb|].
  change (thumbnail Sample.disk (Sample.file "IMG_0001.jpg"))
    with (Return (thumbnailOf (fullPath (Sample.file "IMG_0001.jpg")) 3000 2000)) in Hb.
  injection Hb as <-. repeat split.
Defined.

(** ** Discovery *)

Example extname_samples :
  map Path.extname
    ["IMG_0001.jpg"; "IMG_0002.JPG"; "notes.txt"; "scan.Jpg"; ".jpg"; "archive.jpg.zip";
     "README"; ".."; "a."; "dir.d/file.jpeg"; "roll.jpeg/"]%string
  = [".jpg"; ".JPG"; ".txt"; ".Jpg"; ""; ".zip"; ""; ""; "."; ".jpeg"; ".jpeg"]%string.
Proof. reflexivity. Qed.




Example getImages_sample :
  getImages Sample.readdir "/roll"
  = Return (map Sample.file
      ["IMG_0001.jpg"; "IMG_0002.JPG"; "IMG_0003.jpeg"; "portrait.jpg"; "IMG_0004.JPEG";
       "bad.jpg"; "cut.jpg"; "IMG_0005.jpg"; "IMG_0006.jpg"]%string).
Proof. reflexivity. Qed.

Example getImages_caps_at_36 :
  forall directory,
    match getImages (fun _ => Return (repeat "frame.jpg"%string 40)) directory with
    | Return images => List.length images = 36%nat
    | Throw _ => False
    end.
Proof. intros directory. reflexivity. Qed.

(** ** Footer lines and escaping *)

Lemma present_lines_In s l d n f v :
  In (f, v) (present_lines s l d n) <-> JS.truthy (field_of s l d n f) = Some v.
Proof.
  unfold present_lines. cbn [flat_map fst snd].
  rewrite !in_app_iff.
  destruct (JS.truthy s) eqn:Es, (JS.truthy l) eqn:El, (JS.truthy d) eqn:Ed,
    (JS.truthy n) eqn:En; destruct f; cbn [field_of In];
    rewrite ?Es, ?El, ?Ed, ?En; split; intros H;
    repeat match goal with
           | H : _ \/ _ |- _ => destruct H
           | H : False |- _ => destruct H
           | H : (_, _) = (_, _) |- _ => inversion H; clear H; subst
           | H : Some _ = Some _ |- _ => inversion H; clear H; subst
           end;
    try discriminate; try reflexivity; tauto.
Qed.




Example footer_sample :
  svg_body (createFooterSVG (Some "CS-001"%string) None (Some "2024"%string) None
              1393 323)
  = [label 0 60 "normal" "Roll:"; value 320 60 84 "bold" "#000" "CS-001";
     label 0 128 "400" "Date:"; value 320 128 58 "300" "#333" "2024"]%string.
Proof. reflexivity. Qed.

Lemma append_assoc (s1 s2 s3 : string) :
  ((s1 ++ s2) ++ s3 = s1 ++ (s2 ++ s3))%string.
Proof. induction s1 as [|a s1 IH]; simpl; [reflexivity|now rewrite IH]. Qed.

Lemma replace_all_app c by_ s1 s2 :
  JS.replace_all c by_ (s1 ++ s2)
  = (JS.replace_all c by_ s1 ++ JS.replace_all c by_ s2)%string.
Proof.
  induction s1 as [|a s1 IH]; simpl; [reflexivity|].
  rewrite IH. destruct (Ascii.eqb a c); [|reflexivity].
  now rewrite append_assoc.
Qed.

Lemma escapeXml_app s1 s2 :
  escapeXml (s1 ++ s2) = (escapeXml s1 ++ escapeXml s2)%string.
Proof. unfold escapeXml. now rewrite !replace_all_app. Qed.

Lemma escapeXml_char a : escapeXml (String a EmptyString) = entity a.
Proof. destruct a as [[] [] [] [] [] [] [] []]; reflexivity. Qed.

Lemma escapeXml_xml_escaped s : escapeXml s = xml_escaped s.
Proof.
  induction s as [|a s IH]; [reflexivity|].
  change (String a s) with (String a EmptyString ++ s)%string.
  rewrite escapeXml_app, escapeXml_char, IH. reflexivity.
Qed.

Lemma prefix_empty s : String.prefix EmptyString s = true.
Proof. destruct s; reflexivity. Qed.

Lemma wellEscaped_entity a s :
  wellEscaped s = true -> wellEscaped (entity a ++ s) = true.
Proof.
  intros H. destruct a as [[] [] [] [] [] [] [] []]; simpl;
    rewrite ?prefix_empty, ?H; reflexivity.
Qed.

Lemma wellEscaped_xml_escaped s : wellEscaped (xml_escaped s) = true.
Proof.
  induction s as [|a s IH]; [reflexivity|]. simpl xml_escaped.
  now apply wellEscaped_entity.
Qed.

Lemma wellEscaped_occurs s :
  wellEscaped s = true ->
  forall c, In c ["<"; ">"; "034"; "'"]%char -> occurs c s = false.
Proof.
  induction s as [|a s IH]; intros H c Hc; [reflexivity|].
  simpl in H. apply andb_prop in H as [H Hs]. apply andb_prop in H as [Ha _].
  simpl. rewrite (IH Hs c Hc), orb_false_r.
  apply negb_true_iff in Ha.
  destruct (Ascii.eqb_spec a c) as [->|]; [|reflexivity].
  exfalso. simpl in Hc.
  destruct Hc as [<-|[<-|[<-|[<-|[]]]]]; discriminate Ha.
Qed.

Lemma truthy_Some v s : JS.truthy v = Some s -> v = Some s /\ s <> EmptyString.
Proof.
  unfold JS.truthy. destruct v as [t|]; [|discriminate].
  destruct (String.eqb_spec t ""); [discriminate|].
  intros E. injection E as <-. now split.
Qed.

Lemma stack_In lines : forall y t,
  In (text t) (stack y lines) ->
  (exists f, text_content t = caption f)
  \/ (exists f v, In (f, v) lines /\ text_content t = escapeXml v).
Proof.
  induction lines as [|[f v] rest IH]; intros y t Hin; simpl in Hin; [destruct Hin|].
  destruct Hin as [E|[E|Hin]].
  - left. exists f. unfold label in E. injection E as <-. reflexivity.
  - right. exists f, v. unfold value in E. injection E as <-.
    split; [now left|reflexivity].
  - destruct (IH _ _ Hin) as [Hc|(f' & v' & Hl & Ht)]; [now left|].
    right. exists f', v'. split; [now right|exact Ht].
Qed.

Lemma stack_value lines : forall y f v,
  In (f, v) lines ->
  exists t, In (text t) (stack y lines) /\ text_content t = escapeXml v.
Proof.
  induction lines as [|[f' v'] rest IH]; intros y f v Hin; [destruct Hin|].
  destruct Hin as [E|Hin].
  - injection E as -> ->. eexists. split; [simpl; right; left; reflexivity|reflexivity].
  - destruct (IH (y + advance f') f v Hin) as (t & Ht & Hc).
    exists t. split; [simpl; right; right; exact Ht|exact Hc].
Qed.

(** C9: [escapeXml] turns each of the five metacharacters into its
    entity and leaves every other character, for every string: its
    result holds no [<], [>] or quote, and each [&] in it opens an
    entity.  Every field value in the footer is embedded through it, so
    the text of every footer element is well escaped. *)
Theorem C9_escapeXml :
  (forall str,
     escapeXml str = xml_escaped str
     /\ wellEscaped (escapeXml str) = true
     /\ (forall c, In c ["<"; ">"; "034"; "'"]%char -> occurs c (escapeXml str) = false))
  /\ (forall s l d n w h t,
        In (text t) (svg_body (createFooterSVG s l d n w h)) ->
        wellEscaped (text_content t) = true
        /\ ((exists f, text_content t = caption f)
            \/ (exists f v, field_of s l d n f = Some v /\ v <> EmptyString
                            /\ text_content t = escapeXml v)))
  /\ (forall s l d n w h f v,
        field_of s l d n f = Some v -> v <> EmptyString ->
        exists t, In (text t) (svg_body (createFooterSVG s l d n w h))
                  /\ text_content t = escapeXml v).
Proof.
  assert (Hwell : forall str, wellEscaped (escapeXml str) = true).
  { intros str. rewrite escapeXml_xml_escaped. apply wellEscaped_xml_escaped. }
  split; [|split].
  - intros str. split; [apply escapeXml_xml_escaped|split; [apply Hwell|]].
    apply wellEscaped_occurs, Hwell.
  - intros s l d n w h t Hin. rewrite createFooterSVG_body in Hin.
    apply stack_In in Hin as [[f Hf]|(f & v & Hl & Hv)].
    + split; [|left; now exists f]. rewrite Hf. destruct f; reflexivity.
    + split; [rewrite Hv; apply Hwell|].
      right. exists f, v. apply present_lines_In, truthy_Some in Hl as [Hfield Hne].
      now repeat split.
  - intros s l d n w h f v Hfield Hne. rewrite createFooterSVG_body.
    apply (stack_value _ 60 f v). apply present_lines_In.
    rewrite Hfield. unfold JS.truthy.
    destruct (String.eqb_spec v ""); [contradiction|reflexivity].
Qed.

Example footer_markup_sample :
  let hostile := "</text><script>'&'"%string in
  let markup := Markup.svg (createFooterSVG (Some hostile) None None (Some hostile) 1393 323) in
  count_char "<" markup = 10%nat
  /\ count_char ">" markup = 10%nat
  /\ count_char "034" markup = 60%nat
  /\ count_char "'" markup = 0%nat.
Proof. repeat split. Qed.

Example escapeXml_sample :
  escapeXml "Tom & <Jerry> 'cat'"%string
  = "Tom &amp; &lt;Jerry&gt; &apos;cat&apos;"%string
  /\ escapeXml "&lt;"%string = "&amp;lt;"%string.
Proof. split; reflexivity. Qed.

Lemma C9_escapeXml_witness :
  exists t,
    In (text t) (svg_body (createFooterSVG (Some "R&D <1>"%string) None None None 1393 323))
    /\ text_content t = "R&amp;D &lt;1&gt;"%string.
Proof.
  refine (proj2 (proj2 C9_escapeXml) (Some "R&D <1>"%string) None None None 1393 323
            Serial "R&D <1>"%string eq_refl _).
  discriminate.
Defined.


(** * Further properties of the script *)

(** ** Geometry of the overlays *)

Lemma thumbnail_Return_inv disk image buffer :
  thumbnail disk image = Return buffer ->
  exists w h, disk (fullPath image) = Picture w h
              /\ buffer = thumbnailOf (fullPath image) w h.
Proof.
  intros H. destruct (disk (fullPath image)) as [m|w h m|w h] eqn:E.
  - unfold thumbnail, Sharp.metadata, Sharp.sharp in H. cbn [source_path] in H.
    rewrite E in H. discriminate.
  - unfold thumbnail, Sharp.metadata, Sharp.toBuffer, Sharp.sharp, Sharp.resize,
      Sharp.rotate in H. cbn [source_path] in H. rewrite E in H.
    cbv beta iota zeta in H. cbn [height width] in H.
    destruct (h >? w); cbn [source_path] in H; rewrite E in H; discriminate.
  - exists w, h. split; [reflexivity|].
    rewrite (thumbnail_thumbnailOf _ _ _ _ E) in H. now injection H.
Qed.

Lemma thumbnailOf_size path w h :
  raster_width (thumbnailOf path w h) = CELL_WIDTH
  /\ raster_height (thumbnailOf path w h) = CELL_HEIGHT.
Proof. unfold thumbnailOf. rewrite resized_contain. split; reflexivity. Qed.

(** Every thumbnail the loop pushes is one cell in size, at the origin of
    the cell of some index. *)
Lemma placed_cell disk images i c :
  In c (placed disk images i) ->
  exists k : nat,
    (k < List.length images)%nat
    /\ left c = origin_x (i + Z.of_nat k) /\ top c = origin_y (i + Z.of_nat k)
    /\ overlay_width c = CELL_WIDTH /\ overlay_height c = CELL_HEIGHT.
Proof.
  intros Hin. apply placed_In in Hin as (k & image & buffer & Hk & Hb & ->).
  exists k. split; [apply nth_error_Some; congruence|].
  apply thumbnail_Return_inv in Hb as (w & h & _ & ->).
  unfold overlay_width, overlay_height. cbn [input left top].
  destruct (thumbnailOf_size (fullPath image) w h) as [-> ->]. now repeat split.
Qed.

Lemma origin_bounds i :
  0 <= i ->
  MARGIN <= origin_x i /\ origin_x i + CELL_WIDTH <= IMAGE_SIZE - MARGIN
  /\ MARGIN <= origin_y i
  /\ (i < MAX_IMAGES -> origin_y i + CELL_HEIGHT <= MARGIN + GRID_HEIGHT)
  /\ (MAX_IMAGES <= i -> MARGIN + GRID_HEIGHT + CELL_PADDING <= origin_y i).
Proof.
  intros Hi. rewrite IMAGE_SIZE_value.
  unfold origin_x, origin_y, cell_col, cell_row, MAX_IMAGES, GRID_HEIGHT, GRID_ROWS,
    GRID_COLS, MARGIN, CELL_WIDTH, CELL_HEIGHT, CELL_PADDING.
  pose proof (Z.div_mod i 6 ltac:(lia)) as D.
  pose proof (Z.mod_pos_bound i 6 ltac:(lia)) as M.
  assert (0 <= i / 6) by (apply Z.div_pos; lia).
  repeat split; lia.
Qed.

Lemma origin_apart i j :
  0 <= i -> 0 <= j -> i <> j ->
  origin_x i + CELL_WIDTH + CELL_PADDING <= origin_x j
  \/ origin_x j + CELL_WIDTH + CELL_PADDING <= origin_x i
  \/ origin_y i + CELL_HEIGHT + CELL_PADDING <= origin_y j
  \/ origin_y j + CELL_HEIGHT + CELL_PADDING <= origin_y i.
Proof.
  intros Hi Hj Hne.
  unfold origin_x, origin_y, cell_col, cell_row, GRID_COLS, MARGIN,
    CELL_WIDTH, CELL_HEIGHT, CELL_PADDING.
  pose proof (Z.div_mod i 6 ltac:(lia)) as Di.
  pose proof (Z.div_mod j 6 ltac:(lia)) as Dj.
  pose proof (Z.mod_pos_bound i 6 ltac:(lia)) as Mi.
  pose proof (Z.mod_pos_bound j 6 ltac:(lia)) as Mj.
  lia.
Qed.

Lemma placed_apart disk images : forall i,
  0 <= i -> ForallOrdPairs apart (placed disk images i).
Proof.
  induction images as [|image rest IH]; intros i Hi; simpl; [constructor|].
  specialize (IH (i + 1) ltac:(lia)).
  destruct (thumbnail disk image) as [buffer|message] eqn:Hb; [|exact IH].
  simpl. constructor; [|exact IH].
  apply thumbnail_Return_inv in Hb as (w & h & _ & ->).
  apply Forall_forall. intros c Hc.
  apply placed_cell in Hc as (k & _ & Hx & Hy & Hw & Hh).
  destruct (thumbnailOf_size (fullPath image) w h) as [Ew Eh].
  unfold apart, overlay_right, overlay_bottom, overlay_width, overlay_height.
  cbn [input left top]. rewrite Ew, Eh.
  unfold overlay_width in Hw. unfold overlay_height in Hh. rewrite Hx, Hy, Hw, Hh.
  pose proof (origin_apart i (i + 1 + Z.of_nat k) ltac:(lia) ltac:(lia) ltac:(lia)).
  unfold CELL_PADDING in *. lia.
Qed.

(** X1: every image is accounted for: it is either composited or
    reported, never both and never silently lost. *)
Theorem X1_every_image_accounted : forall disk images metadata,
  (List.length (thumbnails (fst (createContactSheet disk images metadata)))
   + List.length (warnings (snd (createContactSheet disk images metadata)))
   = List.length images)%nat
  /\ (forall w, In w (warnings (snd (createContactSheet disk images metadata))) ->
        exists image message,
          In image images /\ thumbnail disk image = Throw message
          /\ w = ("Error processing " ++ filename image ++ ": " ++ message)%string)
  /\ (forall c, In c (thumbnails (fst (createContactSheet disk images metadata))) ->
        exists image buffer,
          In image images /\ thumbnail disk image = Return buffer
          /\ input c = thumbnailBuffer buffer).
Proof.
  intros disk images metadata.
  rewrite thumbnails_placed, createContactSheet_console.
  split; [|split].
  - rewrite <- (placed_skipped_length disk images 0). f_equal.
    induction images as [|image rest IH]; simpl; [reflexivity|].
    unfold warnings in *. rewrite flat_map_app, !length_app, IH.
    destruct (thumbnail disk image); reflexivity.
  - induction images as [|image rest IH]; simpl; [intros w []|].
    intros w Hw. unfold warnings in Hw. rewrite flat_map_app in Hw.
    apply in_app_or in Hw as [Hw|Hw].
    + destruct (thumbnail disk image) as [|message] eqn:E; [destruct Hw|].
      destruct Hw as [<-|[]]. exists image, message. now repeat split; [left|..].
    + destruct (IH w Hw) as (im & m & Hin & Hm & ->).
      exists im, m. now repeat split; [right|..].
  - intros c Hc. apply placed_In in Hc as (k & image & buffer & Hk & Hb & ->).
    exists image, buffer. split; [now apply nth_error_In in Hk|now split].
Qed.

(** X2: with at most 36 images every thumbnail lies inside the margins
    and above the bottom edge of the grid. *)
Theorem X2_thumbnails_inside_grid : forall disk images metadata c,
  (List.length images <= 36)%nat ->
  In c (thumbnails (fst (createContactSheet disk images metadata))) ->
  MARGIN <= left c /\ overlay_right c <= IMAGE_SIZE - MARGIN
  /\ MARGIN <= top c /\ overlay_bottom c <= MARGIN + GRID_HEIGHT
  /\ overlay_bottom c <= IMAGE_SIZE - MARGIN.
Proof.
  intros disk images metadata c Hn Hc. rewrite thumbnails_placed in Hc.
  apply placed_cell in Hc as (k & Hk & Hx & Hy & Hw & Hh).
  unfold overlay_right, overlay_bottom. rewrite Hx, Hy, Hw, Hh.
  destruct (origin_bounds (0 + Z.of_nat k) ltac:(lia)) as (B1 & B2 & B3 & B4 & _).
  specialize (B4 ltac:(unfold MAX_IMAGES, GRID_ROWS, GRID_COLS; lia)).
  repeat split; try assumption.
  rewrite IMAGE_SIZE_value in *.
  unfold GRID_HEIGHT, GRID_ROWS, MARGIN, CELL_HEIGHT, CELL_PADDING in *. lia.
Qed.

Lemma X2_thumbnails_inside_grid_witness :
  forallb (fun c => (MARGIN <=? left c) && (overlay_bottom c <=? MARGIN + GRID_HEIGHT))
    (thumbnails (fst (createContactSheet Sample.disk Sample.ten Sample.labelled))) = true.
Proof.
  apply forallb_forall. intros c Hc.
  destruct (X2_thumbnails_inside_grid Sample.disk Sample.ten Sample.labelled c
              ltac:(simpl; lia) Hc) as (H1 & _ & _ & H4 & _).
  apply andb_true_intro. split; apply Z.leb_le; assumption.
Defined.

(** X3: whatever the number of images, no two thumbnails share a
    pixel. *)
Theorem X3_thumbnails_pairwise_apart : forall disk images metadata,
  ForallOrdPairs apart (thumbnails (fst (createContactSheet disk images metadata))).
Proof.
  intros disk images metadata. rewrite thumbnails_placed.
  apply placed_apart. lia.
Qed.
